(** * RoboKhutt: [src/img_utilities.py]

    A shallow embedding of the text renderer [render_text_image] and of the
    dataset [TextImageDataset], with the properties of the specification
    stated over it.

    Conventions of the embedding
    - a Python [str] is a [string]; a character of an alphabet is a [str]
      (Python has no character type), so an alphabet is a [list string];
    - a Python [int] is a [Z]; [//] is [Z.div] (both round to minus infinity);
    - an exception is a value of [exn]; code that may raise returns
      [result A = exn + A];
    - the image and font libraries (PIL), the Arabic reshaper, the bidi
      algorithm and the tensor library are outside the repository: they are
      the fields of the class [Backend], and every general theorem holds for
      every backend. *)

From Stdlib Require Import List ZArith QArith Lia Lqa Bool String Ascii Sorted.
Import ListNotations.

Local Open Scope string_scope.
Local Open Scope list_scope.
Local Open Scope Z_scope.

(* ================================================================= *)
(** ** Python primitives *)

Module Py.

(** Exceptions, by class.  [IOError] is Python 3's alias of [OSError]. *)
Inductive exn : Type :=
| IOError (msg : string)
| IndexError (msg : string)
| ValueError (msg : string)
| OtherError (cls msg : string).

Definition is_IOError (e : exn) : bool :=
  match e with IOError _ => true | _ => false end.

Definition result (A : Type) : Type := (exn + A)%type.

Definition ret {A} (a : A) : result A := inr a.
Definition raise {A} (e : exn) : result A := inl e.

Definition bind {A B} (c : result A) (k : A -> result B) : result B :=
  match c with
  | inl e => inl e
  | inr a => k a
  end.

(** [try: c  except IOError: h] *)
Definition try_except_IOError {A} (c : result A) (h : result A) : result A :=
  match c with
  | inl e => if is_IOError e then h else inl e
  | inr a => inr a
  end.

(** [range(lo, hi)] *)
Definition range (lo hi : Z) : list Z :=
  map (fun i => lo + Z.of_nat i) (seq 0 (Z.to_nat (hi - lo))).

(** [''.join(parts)] *)
Definition join (parts : list string) : string :=
  fold_right String.append EmptyString parts.

(** [l[idx]] on a list: negative indices count from the end, anything
    outside [-len(l) .. len(l)-1] raises [IndexError]. *)
Definition getitem {A} (l : list A) (idx : Z) : result A :=
  let n := Z.of_nat (List.length l) in
  let i := if idx <? 0 then idx + n else idx in
  if (0 <=? i) && (i <? n)
  then match nth_error l (Z.to_nat i) with
       | Some a => ret a
       | None => raise (IndexError "list index out of range")
       end
  else raise (IndexError "list index out of range").

(** [d.get(key, default)] on a dict literal given as its items. *)
Fixpoint dict_get {V} (d : list (string * V)) (key : string) (default : V) : V :=
  match d with
  | [] => default
  | (k, v) :: d' => if String.eqb k key then v else dict_get d' key default
  end.

(** [key in names] for a list of strings. *)
Definition str_in (key : string) (names : list string) : bool :=
  existsb (String.eqb key) names.

(** [itertools.product(pool, repeat=n)], as the library documents it:
<<
    pools = [tuple(pool)] * repeat
    result = [[]]
    for pool in pools:
        result = [x+[y] for x in result for y in pool]
>>  *)
Definition product_step {A} (result : list (list A)) (pool : list A)
  : list (list A) :=
  flat_map (fun x => map (fun y => x ++ [y]) pool) result.

Definition product {A} (pool : list A) (n : nat) : list (list A) :=
  fold_left product_step (repeat pool n) [[]].

(** [a < b] on tuples of integers: Python compares tuples
    lexicographically, a proper prefix being smaller. *)
Fixpoint tuple_ltb (a b : list nat) : bool :=
  match a, b with
  | [], [] => false
  | [], _ :: _ => true
  | _ :: _, [] => false
  | x :: a', y :: b' =>
      if (x <? y)%nat then true
      else if (x =? y)%nat then tuple_ltb a' b'
      else false
  end.

Definition tuple_lt (a b : list nat) : Prop := tuple_ltb a b = true.

End Py.

Notation "x <- c ;; k" := (Py.bind c (fun x => k))
  (at level 61, c at next level, right associativity).

(* ================================================================= *)
(** ** The dataset's enumeration: [generate_all_combinations] *)

(** Lines 115-122.  The two nested [for] loops append to [texts]. *)
Definition generate_all_combinations (alphabet : list string) (max_length : Z)
  : list string :=
  fold_left
    (fun texts length =>
       fold_left
         (fun texts combination => texts ++ [Py.join combination])
         (Py.product alphabet (Z.to_nat length))
         texts)
    (Py.range 1 (max_length + 1))
    [""].

(** The sum [sum_{k=lo}^{hi} a^k], empty when [hi < lo]. *)
Definition sum_pow (a : Z) (lo hi : Z) : Z :=
  fold_right Z.add 0 (map (fun k => a ^ k) (Py.range lo (hi + 1))).

(** The [n] digits of [i] in base [base], most significant first: the
    positions in the pool of the components of the [i]-th tuple of
    [itertools.product(pool, repeat=n)]. *)
Fixpoint digits (base n i : nat) : list nat :=
  match n with
  | O => []
  | S n' => digits base n' (i / base) ++ [(i mod base)%nat]
  end.

(** The text that a tuple of alphabet positions stands for. *)
Definition text_of_digits (alphabet : list string) (ds : list nat) : string :=
  Py.join (map (fun d => nth d alphabet "") ds).

(** An alphabet of characters: every element is a string of length one. *)
Definition is_char (s : string) : bool := (String.length s =? 1)%nat.

(* ================================================================= *)
(** ** The libraries behind the renderer *)

(** [(x, y)] and [(width, height)] pairs. *)
Definition point : Type := (Z * Z)%type.

(** [(left, top, right, bottom)], right and bottom exclusive. *)
Definition bbox : Type := (Z * Z * Z * Z)%type.

Definition rgb : Type := (Z * Z * Z)%type.

(** A colour argument of PIL: a name or an RGB tuple. *)
Inductive color : Type :=
| ColorName (name : string)
| ColorTuple (r g b : Z).

(** [ImageColor.getrgb], for the two names the source uses. *)
Definition getrgb (c : color) : Py.result rgb :=
  match c with
  | ColorTuple r g b => Py.ret (r, g, b)
  | ColorName name =>
      if String.eqb name "white" then Py.ret (255, 255, 255)
      else if String.eqb name "black" then Py.ret (0, 0, 0)
      else Py.raise (Py.ValueError "unknown color specifier")
  end.

(** The size check that [Image.new] makes before anything else (PIL's
    [_check_size]): a negative width or height raises [ValueError]. *)
Definition check_size (size : point) : Py.result unit :=
  if (fst size <? 0) || (snd size <? 0)
  then Py.raise (Py.ValueError "Width and height must be >= 0")
  else Py.ret tt.

(** What the source imports.  [getbbox font text] is [font.getbbox(text)]:
    the box of the ink of [text] relative to the point it is drawn at;
    [getbands image] are the 8-bit values of the three bands of an RGB image,
    each in row order.  [Image_new] is the creation of the canvas proper, for
    a size that has passed [check_size]. *)
Class Backend : Type := {
  Font : Type;
  Image : Type;
  truetype : string -> Z -> Py.result Font;
  load_default : Font;
  getbbox : Font -> string -> bbox;
  getmetrics : Font -> Z * Z;
  Image_new : point -> rgb -> Image;
  draw_text : Image -> point -> string -> Font -> rgb -> Image;
  getbands : Image -> list (list Z);
  reshape : string -> string;
  get_display : string -> string
}.

Definition bbox_shift (xy : point) (b : bbox) : bbox :=
  let '(x0, y0, x1, y1) := b in
  (x0 + fst xy, y0 + snd xy, x1 + fst xy, y1 + snd xy).

(** [ImageDraw.textbbox(xy, text, font)]: PIL returns [font.getbbox(text)]
    moved by [xy]; it is the box of the ink that [draw.text(xy, text, font)]
    leaves on the image. *)
Definition textbbox `{Backend} (xy : point) (text : string) (font : Font) : bbox :=
  bbox_shift xy (getbbox font text).

(* ================================================================= *)
(** ** [render_text_image] *)


Definition bottom_anchors : list string :=
  [ "bottom-left"; "bottom-center"; "bottom-right" ].

(** The dict [positions] of lines 42-52. *)
Definition positions (image_size : point) (text_width text_height : Z)
  : list (string * point) :=
  [ ("top-left", (0, 0));
    ("top-center", ((fst image_size - text_width) / 2, 0));
    ("top-right", (fst image_size - text_width, 0));
    ("center-left", (0, (snd image_size - text_height) / 2));
    ("center", ((fst image_size - text_width) / 2,
                (snd image_size - text_height) / 2));
    ("center-right", (fst image_size - text_width,
                      (snd image_size - text_height) / 2));
    ("bottom-left", (0, snd image_size - text_height));
    ("bottom-center", ((fst image_size - text_width) / 2,
                       snd image_size - text_height));
    ("bottom-right", (fst image_size - text_width,
                      snd image_size - text_height)) ].

(** Lines 38-58: from the measured box and the font's descent to the point
    handed to [draw.text]. *)
Definition text_origin (image_size : point) (text_bbox : bbox) (descent : Z)
  (position : string) : point :=
  let '(b0, b1, b2, b3) := text_bbox in
  let text_width := b2 - b0 in
  let text_height := b3 - b1 in
  let '(x, y) :=
    Py.dict_get (positions image_size text_width text_height) position (0, 0) in
  if Py.str_in position bottom_anchors then (x, y - descent) else (x, y).

Section Renderer.

Context `{B : Backend}.

(** Lines 30-34, shared by both renderers. *)
Definition bidi_text_of (is_arabic : bool) (text : string) : string :=
  if is_arabic then get_display (reshape text) else text.

(** The draw origin of [render_text_image] once the font is loaded. *)
Definition draw_origin (text : string) (image_size : point) (font : Font)
  (position : string) (is_arabic : bool) : point :=
  let bidi_text := bidi_text_of is_arabic text in
  text_origin image_size (textbbox (0, 0) bidi_text font)
    (snd (getmetrics font)) position.

(** Lines 9-63. *)
Definition render_text_image (text : string) (image_size : point)
  (font_name : string) (font_size : Z) (position : string)
  (is_arabic : bool) : Py.result Image :=
  white <- getrgb (ColorName "white") ;;
  let img := Image_new image_size white in
  font <- truetype font_name font_size ;;
  let bidi_text := bidi_text_of is_arabic text in
  let xy := draw_origin text image_size font position is_arabic in
  black <- getrgb (ColorName "black") ;;
  Py.ret (draw_text img xy bidi_text font black).

(** Lines 9-63 with the size check of [Image.new] (line 23), which comes
    before the font is loaded, written out. *)
Definition render_text_image_checked (text : string) (image_size : point)
  (font_name : string) (font_size : Z) (position : string)
  (is_arabic : bool) : Py.result Image :=
  _ <- check_size image_size ;;
  render_text_image text image_size font_name font_size position is_arabic.

(** The box of the text's ink in the image that [render_text_image]
    returns: [textbbox] at the draw origin. *)
Definition rendered_bbox (text : string) (image_size : point) (font : Font)
  (position : string) (is_arabic : bool) : bbox :=
  textbbox (draw_origin text image_size font position is_arabic)
    (bidi_text_of is_arabic text) font.

End Renderer.

(** Margins of a box inside a canvas. *)
Definition margin_left (b : bbox) : Z := let '(l, _, _, _) := b in l.
Definition margin_top (b : bbox) : Z := let '(_, t, _, _) := b in t.
Definition margin_right (image_size : point) (b : bbox) : Z :=
  let '(_, _, r, _) := b in fst image_size - r.
Definition margin_bottom (image_size : point) (b : bbox) : Z :=
  let '(_, _, _, bt) := b in snd image_size - bt.

(** Centred up to the rounding of [// 2]: opposite margins differ by at
    most one pixel. *)
Definition centered_h (image_size : point) (b : bbox) : bool :=
  Z.abs (margin_left b - margin_right image_size b) <=? 1.
Definition centered_v (image_size : point) (b : bbox) : bool :=
  Z.abs (margin_top b - margin_bottom image_size b) <=? 1.

(** No ink below the last row of the canvas. *)
Definition bottom_inside (image_size : point) (b : bbox) : bool :=
  let '(_, _, _, bt) := b in bt <=? snd image_size.

(* ================================================================= *)
(** ** The transform of the dataset *)

(** A float tensor of shape C x H x W, one list per channel, over the
    rationals. *)
Definition Tensor : Type := list (list Q).

(** [transforms.ToTensor()]: the 8-bit bands scaled by 1/255. *)
Definition ToTensor `{Backend} (image : Image) : Tensor :=
  map (map (fun v => (inject_Z v / 255)%Q)) (getbands image).

(** The affine map of [transforms.Normalize] on one value. *)
Definition normalize_value (mean std x : Q) : Q := ((x - mean) / std)%Q.

(** A one-element [mean] or [std] is broadcast over the channels. *)
Definition channel_stat (stats : list Q) (c : nat) : Q :=
  match stats with
  | [m] => m
  | _ => nth c stats 0%Q
  end.

(** [transforms.Normalize(mean, std)] *)
Definition Normalize (mean std : list Q) (tensor : Tensor) : Tensor :=
  map (fun cv : nat * list Q =>
         map (normalize_value (channel_stat mean (fst cv))
                              (channel_stat std (fst cv))) (snd cv))
      (combine (seq 0 (List.length tensor)) tensor).

(** Lines 74-77: [Compose([ToTensor(), Normalize((0.5,), (0.5,))])]. *)
Definition transform `{Backend} (image : Image) : Tensor :=
  Normalize [1 # 2]%Q [1 # 2]%Q (ToTensor image).

(* ================================================================= *)
(** ** [class TextImageDataset] *)

Module TextImageDataset.

Record t : Type := {
  alphabet : list string;
  max_length : Z;
  font_name : string;
  font_size : Z;
  image_size : point;
  is_arabic : bool;
  texts : list string
}.

(** Lines 66-77 ([self.transform] is the constant [transform]). *)
Definition __init__ (alphabet : list string) (max_length : Z)
  (font_name : string) (font_size : Z) (image_size : point)
  (is_arabic : bool) : t :=
  {| alphabet := alphabet;
     max_length := max_length;
     font_name := font_name;
     font_size := font_size;
     image_size := image_size;
     is_arabic := is_arabic;
     texts := generate_all_combinations alphabet max_length |}.

(** Lines 79-80. *)
Definition __len__ (self : t) : Z := Z.of_nat (List.length (texts self)).

Section Methods.

Context `{B : Backend}.

(** Lines 88-113. *)
Definition render_text_image (self : t) (text : string) : Py.result Image :=
  white <- getrgb (ColorTuple 255 255 255) ;;
  let image := Image_new (image_size self) white in
  font <- Py.try_except_IOError
            (truetype (font_name self) (font_size self))
            (Py.ret load_default) ;;
  let bidi_text := bidi_text_of (is_arabic self) text in
  let '(b0, b1, b2, b3) := textbbox (0, 0) bidi_text font in
  let text_width := b2 - b0 in
  let text_height := b3 - b1 in
  let text_position := ((fst (image_size self) - text_width) / 2,
                        (snd (image_size self) - text_height) / 2) in
  black <- getrgb (ColorTuple 0 0 0) ;;
  Py.ret (draw_text image text_position bidi_text font black).

(** Lines 88-113 with the size check of [Image.new] (line 90) written
    out. *)
Definition render_text_image_checked (self : t) (text : string)
  : Py.result Image :=
  _ <- check_size (image_size self) ;;
  render_text_image self text.

(** Lines 82-86. *)
Definition __getitem__ (self : t) (idx : Z) : Py.result (Tensor * string) :=
  text <- Py.getitem (texts self) idx ;;
  image <- render_text_image self text ;;
  let image := transform image in
  Py.ret (image, text).

End Methods.

End TextImageDataset.

(* ================================================================= *)
(** ** A concrete backend

    A small instance of [Backend] on which the definitions run: one font
    file, glyphs of a fixed advance drawn as filled boxes, images kept as
    the canvas and the list of texts drawn on it.  The font's metrics follow
    a scalable sans-serif face under PIL's default anchor (left, ascender):
    the ink of a lowercase text starts below the ascender line, so the top
    of its box is not 0. *)

Module Sample.

Record font : Type := {
  px : Z;            (* requested size *)
  builtin : bool     (* the default bitmap font *)
}.

Definition ascent (f : font) : Z := 19 * px f / 20.
Definition descent (f : font) : Z := px f / 4.

(** Ink from the x-height line down to the baseline, one pixel of left
    bearing, 11/20 em per character; no ink for the empty text.  The default
    bitmap font has cells of 6 x 11 pixels and its box starts at (0, 0). *)
Definition font_getbbox (f : font) (text : string) : bbox :=
  if String.eqb text "" then (0, 0, 0, 0)
  else if builtin f then (0, 0, 6 * Z.of_nat (String.length text), 11)
  else (1, 2 * px f / 5,
        1 + (11 * px f / 20) * Z.of_nat (String.length text), ascent f).

Definition font_truetype (name : string) (size : Z) : Py.result font :=
  if size <=? 0 then Py.raise (Py.ValueError "font size must be greater than 0")
  else if String.eqb name "DejaVuSans.ttf"
       then Py.ret {| px := size; builtin := false |}
       else Py.raise (Py.IOError "cannot open resource").

Record image : Type := {
  size : point;
  background : rgb;
  drawn : list (bbox * rgb)    (* ink boxes, oldest first *)
}.

Definition in_box (b : bbox) (i j : Z) : bool :=
  let '(x0, y0, x1, y1) := b in
  (x0 <=? i) && (i <? x1) && (y0 <=? j) && (j <? y1).

Definition pixel (im : image) (i j : Z) : rgb :=
  fold_left (fun c d => if in_box (fst d) i j then snd d else c)
            (drawn im) (background im).

Definition band (c : rgb -> Z) (im : image) : list Z :=
  flat_map (fun j => map (fun i => c (pixel im i j))
                         (Py.range 0 (fst (size im))))
           (Py.range 0 (snd (size im))).

Fixpoint rev_string (s : string) : string :=
  match s with
  | EmptyString => EmptyString
  | String c s' => rev_string s' ++ String c EmptyString
  end%string.

Definition backend : Backend := {|
  Font := font;
  Image := image;
  truetype := font_truetype;
  load_default := {| px := 10; builtin := true |};
  getbbox := font_getbbox;
  getmetrics := fun f => (ascent f, descent f);
  Image_new := fun sz c => {| size := sz; background := c; drawn := [] |};
  draw_text := fun im xy text f c =>
    {| size := size im; background := background im;
       drawn := drawn im ++ [(bbox_shift xy (font_getbbox f text), c)] |};
  getbands := fun im =>
    [ band (fun c => fst (fst c)) im;
      band (fun c => snd (fst c)) im;
      band (fun c => snd c) im ];
  reshape := fun s => s;
  get_display := rev_string
|}.

End Sample.

(** Case analysis on an anchor name known to be outside a list of names. *)
Ltac decide_anchor H :=
  repeat match goal with
         | |- context [String.eqb ?a ?b] =>
             destruct (String.eqb_spec a b);
             [subst; exfalso; apply H; simpl; tauto|]
         end.

(* ================================================================= *)
(** ** The definitions at work *)

Example generate_ab_2 :
  generate_all_combinations ["a"; "b"] 2 = [""; "a"; "b"; "aa"; "ab"; "ba"; "bb"].
Proof. reflexivity. Qed.

Example generate_negative :
  generate_all_combinations ["a"; "b"] (-3) = [""].
Proof. reflexivity. Qed.

(** An alphabet element that is itself the empty string repeats the empty
    text: alphabets are taken to consist of characters. *)
Example generate_with_empty_element :
  generate_all_combinations [""; "a"] 1 = [""; ""; "a"].
Proof. reflexivity. Qed.

Example getitem_last :
  Py.getitem (generate_all_combinations ["a"; "b"] 2) (-1) = inr "bb".
Proof. reflexivity. Qed.

Example getitem_out_of_range :
  Py.getitem (generate_all_combinations ["a"; "b"] 2) 7
  = inl (Py.IndexError "list index out of range").
Proof. reflexivity. Qed.

(* ================================================================= *)
(** ** Facts about the Python primitives *)

Section ListFacts.

Context {A : Type}.

Lemma fold_left_snoc_map {X} (f : X -> A) (l : list X) (acc : list A) :
  fold_left (fun acc x => acc ++ [f x]) l acc = acc ++ map f l.
Proof.
  revert acc; induction l as [|x l IH]; intros acc; simpl.
  - now rewrite app_nil_r.
  - rewrite IH, <- app_assoc. reflexivity.
Qed.

Lemma fold_left_app_flat_map {X} (g : X -> list A) (l : list X) (acc : list A) :
  fold_left (fun acc x => acc ++ g x) l acc = acc ++ flat_map g l.
Proof.
  revert acc; induction l as [|x l IH]; intros acc; simpl.
  - now rewrite app_nil_r.
  - rewrite IH, <- app_assoc. reflexivity.
Qed.

Lemma flat_map_length_sum {X} (g : X -> list A) (l : list X) :
  List.length (flat_map g l) = list_sum (map (fun x => List.length (g x)) l).
Proof.
  induction l as [|x l IH]; simpl; [reflexivity|].
  now rewrite length_app, IH.
Qed.

Lemma flat_map_all_nil {X} (g : X -> list A) (l : list X) :
  (forall x, In x l -> g x = []) -> flat_map g l = [].
Proof.
  induction l as [|x l IH]; intros Hg; simpl; [reflexivity|].
  rewrite (Hg x (or_introl eq_refl)), IH; [reflexivity|].
  intros y Hy. apply Hg. now right.
Qed.

Lemma map_nth_seq (l : list A) (d : A) :
  map (fun i => nth i l d) (seq 0 (List.length l)) = l.
Proof.
  induction l as [|a l IH]; simpl; [reflexivity|].
  f_equal. rewrite <- seq_shift, map_map. exact IH.
Qed.

Lemma StronglySorted_app_intro (R : A -> A -> Prop) (l1 l2 : list A) :
  StronglySorted R l1 -> StronglySorted R l2 ->
  (forall a b, In a l1 -> In b l2 -> R a b) ->
  StronglySorted R (l1 ++ l2).
Proof.
  induction l1 as [|a l1 IH]; intros H1 H2 Hc; simpl; [exact H2|].
  inversion H1 as [|? ? Hs Hf]; subst.
  constructor.
  - apply IH; auto. intros; apply Hc; simpl; auto.
  - apply Forall_app; split; [exact Hf|].
    apply Forall_forall. intros b Hb. apply Hc; simpl; auto.
Qed.

Lemma StronglySorted_map_intro {X} (R : A -> A -> Prop) (Q : X -> X -> Prop)
  (f : X -> A) (l : list X) :
  (forall x y, Q x y -> R (f x) (f y)) ->
  StronglySorted Q l -> StronglySorted R (map f l).
Proof.
  intros Hf; induction 1 as [|x l Hs IH Hall]; simpl; constructor; auto.
  apply Forall_forall. intros b Hb. apply in_map_iff in Hb.
  destruct Hb as [y [<- Hy]]. apply Hf.
  rewrite Forall_forall in Hall. now apply Hall.
Qed.

End ListFacts.

Lemma range_in (lo hi k : Z) : In k (Py.range lo hi) <-> lo <= k < hi.
Proof.
  unfold Py.range. rewrite in_map_iff. split.
  - intros [i [<- Hi]]. apply in_seq in Hi. lia.
  - intros Hk. exists (Z.to_nat (k - lo)). split; [lia|].
    apply in_seq. lia.
Qed.

Lemma range_cons (lo hi : Z) :
  lo < hi -> Py.range lo hi = lo :: Py.range (lo + 1) hi.
Proof.
  intros H. unfold Py.range.
  replace (Z.to_nat (hi - lo)) with (S (Z.to_nat (hi - (lo + 1)))) by lia.
  simpl. f_equal; [lia|].
  rewrite <- seq_shift, map_map. apply map_ext. intros i. lia.
Qed.

Lemma range_empty (lo hi : Z) : hi <= lo -> Py.range lo hi = [].
Proof.
  intros H. unfold Py.range. now replace (Z.to_nat (hi - lo)) with 0%nat by lia.
Qed.

(** *** [itertools.product] *)

Section ProductFacts.

Context {A : Type}.

Lemma product_step_length (result : list (list A)) (pool : list A) :
  List.length (Py.product_step result pool)
  = (List.length result * List.length pool)%nat.
Proof.
  unfold Py.product_step. rewrite flat_map_length_sum.
  induction result as [|x r IH]; simpl; [reflexivity|].
  now rewrite length_map, IH.
Qed.

Lemma product_fold_length (pool : list A) (n : nat) (result : list (list A)) :
  List.length (fold_left Py.product_step (repeat pool n) result)
  = (List.length result * List.length pool ^ n)%nat.
Proof.
  revert result; induction n as [|n IH]; intros result; simpl.
  - lia.
  - rewrite IH, product_step_length. lia.
Qed.

Lemma product_length (pool : list A) (n : nat) :
  List.length (Py.product pool n) = (List.length pool ^ n)%nat.
Proof.
  unfold Py.product. rewrite product_fold_length. simpl. lia.
Qed.

Lemma product_fold_nil (pools : list (list A)) :
  fold_left Py.product_step pools [] = [].
Proof. induction pools as [|p ps IH]; simpl; auto. Qed.

Lemma product_empty_pool (n : nat) : Py.product (@nil A) (S n) = [].
Proof. unfold Py.product. simpl. apply product_fold_nil. Qed.

(** Every tuple of the product has [n] components, all from the pool. *)
Lemma product_fold_members (pool : list A) (n m : nat) (result : list (list A)) :
  (forall x, In x result -> List.length x = m /\ Forall (fun a => In a pool) x) ->
  forall x, In x (fold_left Py.product_step (repeat pool n) result) ->
            List.length x = (m + n)%nat /\ Forall (fun a => In a pool) x.
Proof.
  revert m result; induction n as [|n IH]; intros m result Hres x Hx; simpl in Hx.
  - rewrite Nat.add_0_r. now apply Hres.
  - replace (m + S n)%nat with (S m + n)%nat by lia.
    apply (IH (S m) (Py.product_step result pool)); [|exact Hx].
    intros z Hz. unfold Py.product_step in Hz.
    apply in_flat_map in Hz. destruct Hz as [w [Hw Hz]].
    apply in_map_iff in Hz. destruct Hz as [y [<- Hy]].
    destruct (Hres w Hw) as [Hl Hf]. split.
    + rewrite length_app. simpl. lia.
    + apply Forall_app. split; [exact Hf|]. now constructor.
Qed.

Lemma product_members (pool : list A) (n : nat) (x : list A) :
  In x (Py.product pool n) ->
  List.length x = n /\ Forall (fun a => In a pool) x.
Proof.
  intros Hx. apply (product_fold_members pool n 0 [[]]); [|exact Hx].
  intros z [<-|[]]. split; [reflexivity|constructor].
Qed.

End ProductFacts.

Lemma product_step_map {A B} (f : A -> B) (result : list (list A)) (pool : list A) :
  Py.product_step (map (map f) result) (map f pool)
  = map (map f) (Py.product_step result pool).
Proof.
  unfold Py.product_step.
  induction result as [|x r IH]; simpl; [reflexivity|].
  rewrite IH, map_app. f_equal.
  rewrite !map_map. apply map_ext. intros y.
  now rewrite map_app.
Qed.

Lemma product_map {A B} (f : A -> B) (pool : list A) (n : nat) :
  Py.product (map f pool) n = map (map f) (Py.product pool n).
Proof.
  unfold Py.product.
  change [[]] with (map (map f) [[]]) at 1.
  generalize (@nil A :: nil).
  induction n as [|n IH]; intros result; simpl; [reflexivity|].
  now rewrite product_step_map, IH.
Qed.

(** *** Tuple order and the order of [itertools.product] *)

Lemma tuple_lt_snoc_last (x : list nat) (y y' : nat) :
  (y < y')%nat -> Py.tuple_lt (x ++ [y]) (x ++ [y']).
Proof.
  intros Hy. unfold Py.tuple_lt. induction x as [|a x IH]; simpl.
  - apply Nat.ltb_lt in Hy. now rewrite Hy.
  - now rewrite Nat.ltb_irrefl, Nat.eqb_refl.
Qed.

Lemma tuple_lt_snoc_prefix (x x' : list nat) (y y' : nat) :
  List.length x = List.length x' ->
  Py.tuple_lt x x' -> Py.tuple_lt (x ++ [y]) (x' ++ [y']).
Proof.
  unfold Py.tuple_lt. revert x'.
  induction x as [|a x IH]; intros [|b x'] Hl Hlt; simpl in *;
    try discriminate.
  destruct (a <? b)%nat; [reflexivity|].
  destruct (a =? b)%nat; [|discriminate].
  apply IH; [lia|exact Hlt].
Qed.

Lemma product_step_sorted (pool : list nat) (m : nat) (result : list (list nat)) :
  StronglySorted lt pool ->
  (forall x, In x result -> List.length x = m) ->
  StronglySorted Py.tuple_lt result ->
  StronglySorted Py.tuple_lt (Py.product_step result pool).
Proof.
  intros Hpool Hlen Hs. unfold Py.product_step.
  induction Hs as [|x r Hs IH Hall]; simpl; [constructor|].
  apply StronglySorted_app_intro.
  - apply (StronglySorted_map_intro _ lt); [|exact Hpool].
    intros; now apply tuple_lt_snoc_last.
  - apply IH. intros; apply Hlen; simpl; auto.
  - intros a b Ha Hb.
    apply in_map_iff in Ha. destruct Ha as [y [<- _]].
    apply in_flat_map in Hb. destruct Hb as [x' [Hx' Hb]].
    apply in_map_iff in Hb. destruct Hb as [y' [<- _]].
    apply tuple_lt_snoc_prefix.
    + rewrite (Hlen x), (Hlen x'); simpl; auto.
    + rewrite Forall_forall in Hall. now apply Hall.
Qed.

Lemma product_step_lengths {A} (pool : list A) (m : nat) (result : list (list A)) :
  (forall x, In x result -> List.length x = m) ->
  forall x, In x (Py.product_step result pool) -> List.length x = S m.
Proof.
  intros Hlen x Hx. unfold Py.product_step in Hx.
  apply in_flat_map in Hx. destruct Hx as [w [Hw Hx]].
  apply in_map_iff in Hx. destruct Hx as [y [<- _]].
  rewrite length_app, (Hlen w Hw). simpl. lia.
Qed.

Lemma product_sorted (pool : list nat) (n : nat) :
  StronglySorted lt pool -> StronglySorted Py.tuple_lt (Py.product pool n).
Proof.
  intros Hpool. unfold Py.product.
  assert (Hinv : exists m, (forall x, In x [@nil nat] -> List.length x = m)
                           /\ StronglySorted Py.tuple_lt [@nil nat]).
  { exists 0%nat. split.
    - intros x [<-|[]]. reflexivity.
    - repeat constructor. }
  revert Hinv. generalize [@nil nat].
  induction n as [|n IH]; intros result [m [Hlen Hs]]; simpl; [exact Hs|].
  apply IH. exists (S m). split.
  - now apply product_step_lengths.
  - now apply (product_step_sorted pool m).
Qed.

Lemma seq_sorted (start len : nat) : StronglySorted lt (seq start len).
Proof.
  revert start; induction len as [|len IH]; intros start; simpl; constructor.
  - apply IH.
  - apply Forall_forall. intros x Hx. apply in_seq in Hx. lia.
Qed.

(** *** [generate_all_combinations] as blocks of increasing length *)

Lemma generate_loop (alphabet : list string) (lengths : list Z) (texts : list string) :
  fold_left
    (fun texts length =>
       fold_left (fun texts combination => texts ++ [Py.join combination])
                 (Py.product alphabet (Z.to_nat length)) texts)
    lengths texts
  = texts ++ flat_map (fun len => map Py.join (Py.product alphabet (Z.to_nat len)))
                      lengths.
Proof.
  revert texts; induction lengths as [|len l IH]; intros texts; simpl.
  - now rewrite app_nil_r.
  - rewrite fold_left_snoc_map, IH, <- app_assoc. reflexivity.
Qed.

Lemma generate_blocks (alphabet : list string) (max_length : Z) :
  generate_all_combinations alphabet max_length
  = "" :: flat_map (fun len => map Py.join (Py.product alphabet (Z.to_nat len)))
                   (Py.range 1 (max_length + 1)).
Proof. unfold generate_all_combinations. now rewrite generate_loop. Qed.

Lemma blocks_length (alphabet : list string) (lengths : list Z) :
  (forall k, In k lengths -> 0 <= k) ->
  Z.of_nat (List.length
              (flat_map (fun len => map Py.join (Py.product alphabet (Z.to_nat len)))
                        lengths))
  = fold_right Z.add 0
      (map (fun k => Z.of_nat (List.length alphabet) ^ k) lengths).
Proof.
  induction lengths as [|k l IH]; intros Hpos; simpl; [reflexivity|].
  rewrite length_app, length_map, product_length, Nat2Z.inj_add, Nat2Z.inj_pow.
  rewrite Z2Nat.id by (apply Hpos; simpl; auto).
  rewrite IH; [reflexivity|]. intros; apply Hpos; simpl; auto.
Qed.

Lemma join_empty_inv (parts : list string) :
  Py.join parts = "" -> Forall (fun s => s = "") parts.
Proof.
  induction parts as [|s parts IH]; simpl; intros H; constructor.
  - destruct s; [reflexivity|discriminate].
  - apply IH. destruct s; [exact H|discriminate].
Qed.

Lemma blocks_no_empty_text (alphabet : list string) (lengths : list Z) :
  ~ In "" alphabet ->
  (forall k, In k lengths -> 1 <= k) ->
  ~ In "" (flat_map (fun len => map Py.join (Py.product alphabet (Z.to_nat len)))
                    lengths).
Proof.
  intros Hne Hpos Hin.
  apply in_flat_map in Hin. destruct Hin as [len [Hlen Hin]].
  apply in_map_iff in Hin. destruct Hin as [comb [Hjoin Hcomb]].
  apply product_members in Hcomb. destruct Hcomb as [Hl Hall].
  specialize (Hpos len Hlen).
  destruct comb as [|s comb]; [simpl in Hl; lia|].
  apply join_empty_inv in Hjoin.
  inversion Hjoin as [|? ? Hs _]; subst.
  inversion Hall as [|? ? Hs' _]; subst. contradiction.
Qed.

Lemma getitem_head {A} (a : A) (l : list A) : Py.getitem (a :: l) 0 = inr a.
Proof.
  unfold Py.getitem. cbn [Z.ltb Z.compare].
  replace (0 <=? 0) with true by reflexivity.
  destruct (Z.ltb_spec 0 (Z.of_nat (List.length (a :: l)))) as [_|H].
  - reflexivity.
  - simpl List.length in H. lia.
Qed.

Lemma getitem_nth {A} (l : list A) (idx : Z) (d : A) :
  0 <= idx < Z.of_nat (List.length l) ->
  Py.getitem l idx = inr (nth (Z.to_nat idx) l d).
Proof.
  intros H. unfold Py.getitem.
  destruct (Z.ltb_spec idx 0); [lia|].
  destruct (Z.leb_spec 0 idx); [|lia].
  destruct (Z.ltb_spec idx (Z.of_nat (List.length l))); [|lia].
  simpl. rewrite (nth_error_nth' l d) by lia. reflexivity.
Qed.

(** A negative index counts from the end. *)
Lemma getitem_negative {A} (l : list A) (idx : Z) :
  - Z.of_nat (List.length l) <= idx < 0 ->
  Py.getitem l idx = Py.getitem l (idx + Z.of_nat (List.length l)).
Proof.
  intros H. unfold Py.getitem.
  destruct (Z.ltb_spec idx 0); [|lia].
  destruct (Z.ltb_spec (idx + Z.of_nat (List.length l)) 0); [lia|].
  reflexivity.
Qed.


(* ================================================================= *)
(** ** The enumeration of the dataset *)

(** C1. For an alphabet of [A] elements and a maximal length [L >= 0], the
    length of the dataset is [A^0 + A^1 + ... + A^L]: one text for each
    tuple of 0 to [L] alphabet elements, the empty text included. *)
Theorem dataset_length_geometric_sum
  (alphabet : list string) (max_length : Z)
  (font_name : string) (font_size : Z) (image_size : point) (is_arabic : bool) :
  0 <= max_length ->
  TextImageDataset.__len__
    (TextImageDataset.__init__ alphabet max_length font_name font_size
       image_size is_arabic)
  = sum_pow (Z.of_nat (List.length alphabet)) 0 max_length.
Proof.
  intros HL. unfold TextImageDataset.__len__, TextImageDataset.__init__, sum_pow.
  cbn [TextImageDataset.texts].
  rewrite generate_blocks, (range_cons 0) by lia.
  cbn [List.length map fold_right]. rewrite Nat2Z.inj_succ, blocks_length.
  - change (0 + 1) with 1. rewrite Z.pow_0_r. lia.
  - intros k Hk. apply range_in in Hk. lia.
Qed.

Lemma dataset_length_geometric_sum_witness :
  TextImageDataset.__len__
    (TextImageDataset.__init__ ["a"; "b"; "c"] 3 "DejaVuSans.ttf" 20 (64, 64) false)
  = 1 + 3 + 9 + 27.
Proof.
  rewrite (dataset_length_geometric_sum ["a"; "b"; "c"] 3); [reflexivity|lia].
Defined.

(** C9. Over the empty alphabet, for every maximal length [>= 0], the
    dataset has exactly one element, the empty text. *)
Theorem empty_alphabet_single_text
  (max_length : Z)
  (font_name : string) (font_size : Z) (image_size : point) (is_arabic : bool) :
  0 <= max_length ->
  let self := TextImageDataset.__init__ [] max_length font_name font_size
                image_size is_arabic in
  TextImageDataset.texts self = [""] /\ TextImageDataset.__len__ self = 1.
Proof.
  intros _ self.
  assert (Ht : TextImageDataset.texts self = [""]).
  { subst self. cbn [TextImageDataset.texts TextImageDataset.__init__].
    rewrite generate_blocks. f_equal.
    apply flat_map_all_nil. intros len Hlen. apply range_in in Hlen.
    replace (Z.to_nat len) with (S (Z.to_nat (len - 1))) by lia.
    now rewrite product_empty_pool. }
  split; [exact Ht|].
  unfold TextImageDataset.__len__. now rewrite Ht.
Qed.

Lemma empty_alphabet_single_text_witness :
  TextImageDataset.texts
    (TextImageDataset.__init__ [] 5 "DejaVuSans.ttf" 20 (64, 64) true) = [""]
  /\ TextImageDataset.__len__
       (TextImageDataset.__init__ [] 5 "DejaVuSans.ttf" 20 (64, 64) true) = 1.
Proof.
  apply (empty_alphabet_single_text 5 "DejaVuSans.ttf" 20 (64, 64) true). lia.
Defined.

(** C6. The enumeration is a fixed function of the alphabet and the maximal
    length: the texts come in blocks of increasing length, each block being
    [itertools.product] of the alphabet joined, and [product] lists the
    tuples in lexicographic order of the positions of their components in
    the alphabet.  The texts do not depend on the other arguments of the
    constructor, so the text of an index is the same at every call.  For an
    alphabet of characters (no element is the empty string) the empty text
    is at index 0 and nowhere else. *)
Theorem enumeration_lexicographic_and_stable
  (alphabet : list string) (max_length : Z) :
  ~ In "" alphabet ->
  let texts := generate_all_combinations alphabet max_length in
  texts = "" :: flat_map
                  (fun len => map Py.join (Py.product alphabet (Z.to_nat len)))
                  (Py.range 1 (max_length + 1))
  /\ (forall n : nat,
        Py.product alphabet n
        = map (map (fun i => nth i alphabet ""))
              (Py.product (seq 0 (List.length alphabet)) n)
        /\ StronglySorted Py.tuple_lt
             (Py.product (seq 0 (List.length alphabet)) n))
  /\ Py.getitem texts 0 = inr ""
  /\ count_occ string_dec texts "" = 1%nat
  /\ (forall font_name font_size image_size is_arabic idx,
        Py.getitem
          (TextImageDataset.texts
             (TextImageDataset.__init__ alphabet max_length font_name font_size
                image_size is_arabic)) idx
        = Py.getitem texts idx).
Proof.
  intros Hne texts. subst texts.
  split; [apply generate_blocks|].
  split.
  { intros n. split.
    - rewrite <- product_map, map_nth_seq. reflexivity.
    - apply product_sorted, seq_sorted. }
  split; [rewrite generate_blocks; apply getitem_head|].
  split; [|reflexivity].
  rewrite generate_blocks, count_occ_cons_eq by reflexivity. f_equal.
  apply count_occ_not_In, blocks_no_empty_text; [exact Hne|].
  intros k Hk. apply range_in in Hk. lia.
Qed.

Lemma enumeration_lexicographic_and_stable_witness :
  Py.getitem (generate_all_combinations ["a"; "b"] 2) 0 = inr ""
  /\ count_occ string_dec (generate_all_combinations ["a"; "b"] 2) "" = 1%nat
  /\ StronglySorted Py.tuple_lt (Py.product (seq 0 2) 2).
Proof.
  destruct (enumeration_lexicographic_and_stable ["a"; "b"] 2)
    as (_ & Hlex & H0 & H1 & _).
  - simpl. intros [H|[H|[]]]; discriminate.
  - split; [exact H0|]. split; [exact H1|]. apply (Hlex 2%nat).
Defined.

(* ================================================================= *)
(** ** The anchor table *)



Lemma text_origin_center (image_size : point) (text_bbox : bbox) (descent : Z) :
  text_origin image_size text_bbox descent "center"
  = (let '(b0, b1, b2, b3) := text_bbox in
     ((fst image_size - (b2 - b0)) / 2, (snd image_size - (b3 - b1)) / 2)).
Proof. destruct text_bbox as [[[b0 b1] b2] b3]. reflexivity. Qed.

(** The bottom anchors are moved up by the descent, the others are not. *)
Lemma text_origin_bottom (image_size : point) (b0 b1 b2 b3 descent : Z)
  (position : string) :
  In position bottom_anchors ->
  snd (text_origin image_size (b0, b1, b2, b3) descent position)
  = snd image_size - (b3 - b1) - descent.
Proof.
  intros [<-|[<-|[<-|[]]]]; reflexivity.
Qed.

Lemma text_origin_not_bottom (image_size : point) (text_bbox : bbox)
  (descent : Z) (position : string) :
  ~ In position bottom_anchors ->
  text_origin image_size text_bbox descent position
  = (let '(b0, b1, b2, b3) := text_bbox in
     Py.dict_get (positions image_size (b2 - b0) (b3 - b1)) position (0, 0)).
Proof.
  intros H. destruct text_bbox as [[[b0 b1] b2] b3].
  unfold text_origin. cbv beta iota zeta.
  destruct (Py.dict_get (positions image_size (b2 - b0) (b3 - b1)) position (0, 0))
    as [x y].
  cbv [Py.str_in bottom_anchors existsb].
  decide_anchor H. reflexivity.
Qed.

Section RendererFacts.

Context `{B : Backend}.


(** C5. The dataset's renderer is the general renderer at the anchor
    "center": when the font file loads, both return the same image. *)
Theorem dataset_render_is_center_render
  (self : TextImageDataset.t) (text : string) (font : Font) :
  truetype (TextImageDataset.font_name self) (TextImageDataset.font_size self)
  = inr font ->
  TextImageDataset.render_text_image self text
  = render_text_image text (TextImageDataset.image_size self)
      (TextImageDataset.font_name self) (TextImageDataset.font_size self)
      "center" (TextImageDataset.is_arabic self).
Proof.
  intros Hf.
  unfold TextImageDataset.render_text_image, render_text_image, draw_origin.
  rewrite Hf. simpl. rewrite text_origin_center.
  destruct (textbbox (0, 0) _ font) as [[[b0 b1] b2] b3]. reflexivity.
Qed.

(** The image the dataset's renderer draws with a given font. *)
Lemma dataset_render_with_font
  (self : TextImageDataset.t) (text : string) (font : Font) :
  Py.try_except_IOError
    (truetype (TextImageDataset.font_name self) (TextImageDataset.font_size self))
    (Py.ret load_default) = inr font ->
  TextImageDataset.render_text_image self text
  = inr (draw_text
           (Image_new (TextImageDataset.image_size self) (255, 255, 255))
           (text_origin (TextImageDataset.image_size self)
              (textbbox (0, 0)
                 (bidi_text_of (TextImageDataset.is_arabic self) text) font)
              0 "center")
           (bidi_text_of (TextImageDataset.is_arabic self) text)
           font (0, 0, 0)).
Proof.
  intros Hf. unfold TextImageDataset.render_text_image.
  simpl. rewrite Hf. simpl. rewrite text_origin_center.
  destruct (textbbox (0, 0) _ font) as [[[b0 b1] b2] b3]. reflexivity.
Qed.

Lemma check_size_ok (size : point) :
  0 <= fst size -> 0 <= snd size -> check_size size = inr tt.
Proof.
  intros Hw Hh. unfold check_size.
  destruct (Z.ltb_spec (fst size) 0); [lia|].
  destruct (Z.ltb_spec (snd size) 0); [lia|]. reflexivity.
Qed.

Lemma check_size_negative (size : point) :
  fst size < 0 \/ snd size < 0 ->
  check_size size = inl (Py.ValueError "Width and height must be >= 0").
Proof.
  intros H. unfold check_size.
  destruct (Z.ltb_spec (fst size) 0); [reflexivity|].
  destruct (Z.ltb_spec (snd size) 0); [reflexivity|lia].
Qed.

(** C7, as the code has it.  On a canvas that can be created (width and
    height not negative) a failure of the font loader leaves
    [render_text_image] as it is, and the dataset's renderer turns an
    [IOError] of the loader (missing or invalid font file) into the default
    font and returns the image; a failure of the loader that is not an
    [IOError] leaves the dataset's renderer too.  The loader's is not the
    only error path: [Image.new] comes first in both renderers, and on a
    negative width or height both raise its [ValueError], whatever the
    font. *)
Theorem font_failure_on_valid_canvas
  (text : string) (image_size : point) (font_name : string) (font_size : Z)
  (position : string) (is_arabic : bool) (self : TextImageDataset.t) :
  let load := truetype (TextImageDataset.font_name self)
                (TextImageDataset.font_size self) in
  let size := TextImageDataset.image_size self in
  (0 <= fst image_size -> 0 <= snd image_size ->
   forall e, truetype font_name font_size = inl e ->
     render_text_image_checked text image_size font_name font_size position
       is_arabic = inl e)
  /\ (0 <= fst size -> 0 <= snd size ->
      forall e, load = inl e -> Py.is_IOError e = true ->
        TextImageDataset.render_text_image_checked self text
        = inr (draw_text (Image_new size (255, 255, 255))
                 (text_origin size
                    (textbbox (0, 0)
                       (bidi_text_of (TextImageDataset.is_arabic self) text)
                       load_default)
                    0 "center")
                 (bidi_text_of (TextImageDataset.is_arabic self) text)
                 load_default (0, 0, 0)))
  /\ (0 <= fst size -> 0 <= snd size ->
      forall e, load = inl e -> Py.is_IOError e = false ->
        TextImageDataset.render_text_image_checked self text = inl e)
  /\ (fst image_size < 0 \/ snd image_size < 0 ->
      render_text_image_checked text image_size font_name font_size position
        is_arabic
      = inl (Py.ValueError "Width and height must be >= 0"))
  /\ (fst size < 0 \/ snd size < 0 ->
      TextImageDataset.render_text_image_checked self text
      = inl (Py.ValueError "Width and height must be >= 0")).
Proof.
  intros load size. split; [|split; [|split; [|split]]].
  - intros Hw Hh e He. unfold render_text_image_checked.
    rewrite check_size_ok by assumption. cbn [Py.bind].
    unfold render_text_image. simpl. now rewrite He.
  - intros Hw Hh e He Hio. unfold TextImageDataset.render_text_image_checked.
    fold size. rewrite check_size_ok by assumption. cbn [Py.bind].
    apply (dataset_render_with_font self text load_default).
    fold load. rewrite He. simpl. now rewrite Hio.
  - intros Hw Hh e He Hio. unfold TextImageDataset.render_text_image_checked.
    fold size. rewrite check_size_ok by assumption. cbn [Py.bind].
    unfold TextImageDataset.render_text_image. simpl. fold load.
    rewrite He. simpl. now rewrite Hio.
  - intros Hneg. unfold render_text_image_checked.
    now rewrite check_size_negative.
  - intros Hneg. unfold TextImageDataset.render_text_image_checked.
    fold size. now rewrite check_size_negative.
Qed.


End RendererFacts.


Lemma dataset_render_is_center_render_witness :
  @TextImageDataset.render_text_image Sample.backend
    (TextImageDataset.__init__ ["a"; "b"] 2 "DejaVuSans.ttf" 20 (64, 64) true) "ab"
  = @render_text_image Sample.backend "ab" (64, 64) "DejaVuSans.ttf" 20 "center" true.
Proof.
  apply (dataset_render_is_center_render (B := Sample.backend)
           (TextImageDataset.__init__ ["a"; "b"] 2 "DejaVuSans.ttf" 20 (64, 64) true)
           "ab" {| Sample.px := 20; Sample.builtin := false |}).
  reflexivity.
Defined.


(* ================================================================= *)
(** ** Normalization *)

Lemma normalize_value_half (x : Q) :
  (normalize_value (1 # 2) (1 # 2) x == 2 * x - 1)%Q.
Proof. unfold normalize_value. field. Qed.

Lemma map_snd_combine_seq {X Y} (f : list X -> Y) (t : list (list X)) (n : nat) :
  map (fun cv : nat * list X => f (snd cv)) (combine (seq n (List.length t)) t)
  = map f t.
Proof.
  revert n; induction t as [|c t IH]; intros n; simpl; [reflexivity|].
  f_equal. apply IH.
Qed.

Lemma Normalize_broadcast (mean std : Q) (tensor : Tensor) :
  Normalize [mean] [std] tensor = map (map (normalize_value mean std)) tensor.
Proof.
  unfold Normalize. cbn [channel_stat].
  apply (map_snd_combine_seq (map (normalize_value mean std))).
Qed.

Section TransformFacts.

Context `{B : Backend}.

(** C8. The transform applies [x -> (x - 0.5) / 0.5] to every value of
    every channel; this map sends [0, 1] into [-1, 1], 0 to -1, 0.5 to 0
    and 1 to 1. *)
Theorem normalization_maps_unit_interval (image : Image) (x : Q) :
  (0 <= x <= 1)%Q ->
  transform image
  = map (map (fun v => normalize_value (1 # 2) (1 # 2) (inject_Z v / 255)))
        (getbands image)
  /\ (normalize_value (1 # 2) (1 # 2) x == (x - (1 # 2)) / (1 # 2))%Q
  /\ (-1 <= normalize_value (1 # 2) (1 # 2) x <= 1)%Q
  /\ (normalize_value (1 # 2) (1 # 2) 0 == -1)%Q
  /\ (normalize_value (1 # 2) (1 # 2) (1 # 2) == 0)%Q
  /\ (normalize_value (1 # 2) (1 # 2) 1 == 1)%Q.
Proof.
  intros Hx. split; [|split; [|split; [|split; [|split]]]].
  - unfold transform, ToTensor. rewrite Normalize_broadcast, map_map.
    apply map_ext. intros band. now rewrite map_map.
  - reflexivity.
  - rewrite normalize_value_half. lra.
  - reflexivity.
  - reflexivity.
  - reflexivity.
Qed.

(** Every value of the tensor of an 8-bit image lies in [-1, 1]. *)
Lemma transform_values_in_range (image : Image) :
  Forall (Forall (fun v => 0 <= v <= 255)) (getbands image) ->
  Forall (Forall (fun q => (-1 <= q <= 1)%Q)) (transform image).
Proof.
  intros H. unfold transform, ToTensor. rewrite Normalize_broadcast.
  rewrite !Forall_map. eapply Forall_impl; [|exact H].
  intros band Hb. rewrite !Forall_map. eapply Forall_impl; [|exact Hb].
  intros v Hv. cbv beta in Hv |- *. rewrite normalize_value_half.
  assert (H0 : (inject_Z 0 <= inject_Z v)%Q) by (rewrite <- Zle_Qle; lia).
  assert (H1 : (inject_Z v <= inject_Z 255)%Q) by (rewrite <- Zle_Qle; lia).
  assert (Hd : (inject_Z v / 255 == inject_Z v * (1 # 255))%Q) by (field).
  rewrite Hd. change (inject_Z 0) with 0%Q in H0.
  change (inject_Z 255) with 255%Q in H1. lra.
Qed.

End TransformFacts.

Lemma normalization_maps_unit_interval_witness :
  (-1 <= normalize_value (1 # 2) (1 # 2) (3 # 4) <= 1)%Q.
Proof.
  apply (normalization_maps_unit_interval (B := Sample.backend)
           {| Sample.size := (2, 1); Sample.background := (255, 255, 255);
              Sample.drawn := [] |} (3 # 4)).
  split; discriminate.
Defined.

(* ================================================================= *)
(** ** Where the text lands on the canvas

    [render_text_image] measures the text with [textbbox((0, 0), ...)] and
    keeps only the extents of the box, [b2 - b0] and [b3 - b1]; the box's own
    corner [(b0, b1)] is dropped.  The ink therefore lands [b0] to the right
    of and [b1] below the place the anchor table computes. *)

Section Placement.

Context `{B : Backend}.

(** At "center" the opposite margins differ by twice the corner of the
    measured box, less the rounding of [// 2]. *)
Lemma center_margins
  (text : string) (image_size : point) (font : Font) (is_arabic : bool) :
  let '(b0, b1, b2, b3) := getbbox font (bidi_text_of is_arabic text) in
  let box := rendered_bbox text image_size font "center" is_arabic in
  margin_left box - margin_right image_size box
  = 2 * b0 - (fst image_size - (b2 - b0)) mod 2
  /\ margin_top box - margin_bottom image_size box
     = 2 * b1 - (snd image_size - (b3 - b1)) mod 2.
Proof.
  unfold rendered_bbox, draw_origin, textbbox.
  rewrite text_origin_center.
  destruct (getbbox font (bidi_text_of is_arabic text)) as [[[b0 b1] b2] b3].
  destruct image_size as [w h].
  cbn [bbox_shift fst snd margin_left margin_right margin_top margin_bottom].
  rewrite !Z.add_0_r.
  pose proof (Z.div_mod (w - (b2 - b0)) 2 ltac:(lia)).
  pose proof (Z.div_mod (h - (b3 - b1)) 2 ltac:(lia)).
  split; lia.
Qed.

(** When the measured box starts at (0, 0) the text is centred. *)
Lemma center_centered_without_offset
  (text : string) (image_size : point) (font : Font) (is_arabic : bool)
  (b2 b3 : Z) :
  getbbox font (bidi_text_of is_arabic text) = (0, 0, b2, b3) ->
  let box := rendered_bbox text image_size font "center" is_arabic in
  centered_h image_size box = true /\ centered_v image_size box = true.
Proof.
  intros Hb box.
  pose proof (center_margins text image_size font is_arabic) as Hm.
  rewrite Hb in Hm. fold box in Hm. destruct Hm as [Hh Hv].
  unfold centered_h, centered_v. rewrite Hh, Hv.
  pose proof (Z.mod_pos_bound (fst image_size - (b2 - 0)) 2 ltac:(lia)).
  pose proof (Z.mod_pos_bound (snd image_size - (b3 - 0)) 2 ltac:(lia)).
  split; apply Z.leb_le; lia.
Qed.

(** At a bottom anchor the room left under the ink is the descent less
    the top of the measured box: the ink leaves the canvas as soon as that
    top exceeds the descent. *)
Lemma bottom_margin
  (text : string) (image_size : point) (font : Font) (position : string)
  (is_arabic : bool) :
  In position bottom_anchors ->
  let '(_, b1, _, _) := getbbox font (bidi_text_of is_arabic text) in
  margin_bottom image_size
    (rendered_bbox text image_size font position is_arabic)
  = snd (getmetrics font) - b1.
Proof.
  intros Hp.
  unfold rendered_bbox, draw_origin, textbbox.
  destruct (getbbox font (bidi_text_of is_arabic text))
    as [[[b0 b1] b2] b3] eqn:Hb.
  cbn [bbox_shift fst snd].
  pose proof (text_origin_bottom image_size (b0 + 0) (b1 + 0) (b2 + 0) (b3 + 0)
                (snd (getmetrics font)) position Hp) as Hy.
  destruct (text_origin _ _ _ position) as [x y].
  cbn [snd fst margin_bottom] in *. lia.
Qed.

End Placement.

(** C3. Evaluation at a text whose measured box does not start at the
    origin: the text "a" in the 20-pixel font has the box (1, 8, 12, 19);
    anchored at "center" on a 64 x 64 canvas its ink occupies rows 34 to 44,
    which leaves 34 rows above and 19 below: it is not vertically centred
    (horizontally the margins are 27 and 26). *)
Theorem center_anchor_off_center :
  let font := {| Sample.px := 20; Sample.builtin := false |} in
  let box := @rendered_bbox Sample.backend "a" (64, 64) font "center" false in
  @truetype Sample.backend "DejaVuSans.ttf" 20 = inr font
  /\ @textbbox Sample.backend (0, 0) "a" font = (1, 8, 12, 19)
  /\ @render_text_image Sample.backend "a" (64, 64) "DejaVuSans.ttf" 20 "center" false
     = inr {| Sample.size := (64, 64); Sample.background := (255, 255, 255);
              Sample.drawn := [((27, 34, 38, 45), (0, 0, 0))] |}
  /\ box = (27, 34, 38, 45)
  /\ margin_left box = 27 /\ margin_right (64, 64) box = 26
  /\ margin_top box = 34 /\ margin_bottom (64, 64) box = 19
  /\ centered_h (64, 64) box = true
  /\ centered_v (64, 64) box = false.
Proof. vm_compute. repeat split; reflexivity. Qed.

(** C4. Evaluation at a text whose measured box starts lower than the
    font's descent: the text "a" in the 20-pixel font has the box
    (1, 8, 12, 19) and the font the descent 5.  At each bottom anchor the
    draw origin is y = 64 - 11 - 5 = 48 and the ink occupies rows 56 to 66 of
    a canvas whose last row is 63: the glyph is cut off at the bottom. *)
Theorem bottom_anchor_clips :
  let font := {| Sample.px := 20; Sample.builtin := false |} in
  @truetype Sample.backend "DejaVuSans.ttf" 20 = inr font
  /\ @textbbox Sample.backend (0, 0) "a" font = (1, 8, 12, 19)
  /\ @getmetrics Sample.backend font = (19, 5)
  /\ @draw_origin Sample.backend "a" (64, 64) font "bottom-left" false = (0, 48)
  /\ @draw_origin Sample.backend "a" (64, 64) font "bottom-center" false = (26, 48)
  /\ @draw_origin Sample.backend "a" (64, 64) font "bottom-right" false = (53, 48)
  /\ @rendered_bbox Sample.backend "a" (64, 64) font "bottom-left" false
     = (1, 56, 12, 67)
  /\ (forall position, In position bottom_anchors ->
        bottom_inside (64, 64)
          (@rendered_bbox Sample.backend "a" (64, 64) font position false) = false)
  /\ @render_text_image Sample.backend "a" (64, 64) "DejaVuSans.ttf" 20
       "bottom-left" false
     = inr {| Sample.size := (64, 64); Sample.background := (255, 255, 255);
              Sample.drawn := [((1, 56, 12, 67), (0, 0, 0))] |}.
Proof.
  cbv zeta. repeat split; try reflexivity.
  intros position [<-|[<-|[<-|[]]]]; reflexivity.
Qed.

(* ================================================================= *)
(** ** More on the enumeration *)

Lemma product_succ {A} (pool : list A) (n : nat) :
  Py.product pool (S n) = Py.product_step (Py.product pool n) pool.
Proof.
  unfold Py.product. cbn [repeat]. rewrite repeat_cons, fold_left_app.
  reflexivity.
Qed.

Lemma product_complete {A} (pool : list A) (n : nat) (x : list A) :
  List.length x = n -> Forall (fun a => In a pool) x -> In x (Py.product pool n).
Proof.
  revert x; induction n as [|n IH]; intros x Hl Hall.
  - destruct x; [left; reflexivity|discriminate].
  - destruct (exists_last (l := x)) as [x' [y ->]].
    { intros ->. discriminate. }
    rewrite length_app in Hl. simpl in Hl.
    apply Forall_app in Hall. destruct Hall as [Hx' Hy].
    rewrite product_succ. unfold Py.product_step.
    apply in_flat_map. exists x'. split.
    + apply IH; [lia|exact Hx'].
    + apply in_map_iff. exists y. split; [reflexivity|now inversion Hy].
Qed.

Lemma product_in_iff {A} (pool : list A) (n : nat) (x : list A) :
  In x (Py.product pool n)
  <-> List.length x = n /\ Forall (fun a => In a pool) x.
Proof.
  split; [apply product_members|].
  intros [Hl Hall]. now apply product_complete.
Qed.

Lemma generate_in_iff (alphabet : list string) (max_length : Z) (t : string) :
  In t (generate_all_combinations alphabet max_length)
  <-> exists combination,
        t = Py.join combination
        /\ Forall (fun a => In a alphabet) combination
        /\ Z.of_nat (List.length combination) <= Z.max 0 max_length.
Proof.
  rewrite generate_blocks. split.
  - intros [<-|Hin].
    + exists []. repeat split; [constructor|simpl; lia].
    + apply in_flat_map in Hin. destruct Hin as [len [Hlen Hin]].
      apply in_map_iff in Hin. destruct Hin as [comb [<- Hcomb]].
      apply product_members in Hcomb. destruct Hcomb as [Hl Hall].
      apply range_in in Hlen.
      exists comb. repeat split; [exact Hall|lia].
  - intros [comb [-> [Hall Hl]]].
    destruct comb as [|a comb]; [left; reflexivity|right].
    apply in_flat_map. exists (Z.of_nat (List.length (a :: comb))). split.
    + apply range_in. simpl List.length in *. lia.
    + apply in_map. rewrite Nat2Z.id. now apply product_complete.
Qed.

(** The texts of the dataset are exactly the concatenations of at most
    [max_length] alphabet elements: every such concatenation is in the
    dataset, and the dataset holds nothing else. *)
Theorem texts_membership (alphabet : list string) (max_length : Z) (t : string) :
  In t (generate_all_combinations alphabet max_length)
  <-> exists combination,
        t = Py.join combination
        /\ Forall (fun a => In a alphabet) combination
        /\ Z.of_nat (List.length combination) <= Z.max 0 max_length.
Proof. apply generate_in_iff. Qed.

Lemma generate_length (alphabet : list string) (max_length : Z) :
  0 <= max_length ->
  Z.of_nat (List.length (generate_all_combinations alphabet max_length))
  = sum_pow (Z.of_nat (List.length alphabet)) 0 max_length.
Proof.
  intros HL. unfold sum_pow.
  rewrite generate_blocks, (range_cons 0) by lia.
  cbn [List.length map fold_right]. rewrite Nat2Z.inj_succ, blocks_length.
  - change (0 + 1) with 1. rewrite Z.pow_0_r. lia.
  - intros k Hk. apply range_in in Hk. lia.
Qed.

Lemma range_snoc (lo hi : Z) :
  lo <= hi -> Py.range lo (hi + 1) = Py.range lo hi ++ [hi].
Proof.
  intros H. unfold Py.range.
  replace (Z.to_nat (hi + 1 - lo)) with (Z.to_nat (hi - lo) + 1)%nat by lia.
  rewrite seq_app, map_app. simpl. f_equal. f_equal. lia.
Qed.

Lemma map_seq_from {X} (f : nat -> X) (m n : nat) :
  map f (seq m n) = map (fun i => f (m + i)%nat) (seq 0 n).
Proof.
  revert m; induction n as [|n IH]; intros m; simpl; [reflexivity|].
  rewrite Nat.add_0_r. f_equal.
  rewrite IH, <- (seq_shift n 0), map_map.
  apply map_ext. intros i. f_equal. lia.
Qed.

Lemma range_split (lo mid hi : Z) :
  lo <= mid <= hi -> Py.range lo hi = Py.range lo mid ++ Py.range mid hi.
Proof.
  intros H. unfold Py.range.
  replace (Z.to_nat (hi - lo))
    with (Z.to_nat (mid - lo) + Z.to_nat (hi - mid))%nat by lia.
  rewrite seq_app, map_app. f_equal. simpl.
  rewrite map_seq_from. apply map_ext. intros i. lia.
Qed.

Lemma sum_pow_succ (a L : Z) :
  0 <= L -> sum_pow a 0 (L + 1) = sum_pow a 0 L + a ^ (L + 1).
Proof.
  intros HL. unfold sum_pow.
  rewrite (range_snoc 0 (L + 1)) by lia.
  rewrite map_app, fold_right_app. simpl.
  generalize (map (fun k => a ^ k) (Py.range 0 (L + 1))). intros l.
  induction l as [|x l IH]; simpl; lia.
Qed.

Lemma sum_pow_closed (a L : Z) :
  0 <= L -> (a - 1) * sum_pow a 0 L = a ^ (L + 1) - 1.
Proof.
  intros HL. pattern L. apply natlike_ind; [| |exact HL].
  - unfold sum_pow. simpl. lia.
  - intros x Hx IH. unfold Z.succ. rewrite sum_pow_succ by lia.
    rewrite Z.mul_add_distr_l, IH.
    rewrite (Z.pow_add_r a (x + 1) 1) by lia. rewrite Z.pow_1_r. lia.
Qed.

(** The closed form of the dataset's length: with [A] alphabet elements and
    [L >= 0], [(A - 1) * len = A^(L+1) - 1]; a one-element alphabet gives
    [L + 1] texts. *)
Theorem dataset_length_closed_form
  (alphabet : list string) (max_length : Z)
  (font_name : string) (font_size : Z) (image_size : point) (is_arabic : bool) :
  0 <= max_length ->
  let A := Z.of_nat (List.length alphabet) in
  let len := TextImageDataset.__len__
               (TextImageDataset.__init__ alphabet max_length font_name
                  font_size image_size is_arabic) in
  (A - 1) * len = A ^ (max_length + 1) - 1
  /\ (A = 1 -> len = max_length + 1).
Proof.
  intros HL A len.
  assert (Hlen : len = sum_pow A 0 max_length).
  { subst len A. unfold TextImageDataset.__len__.
    cbn [TextImageDataset.texts TextImageDataset.__init__].
    now apply generate_length. }
  rewrite Hlen. split; [now apply sum_pow_closed|].
  intros ->. clear Hlen len. pattern max_length.
  apply natlike_ind; [reflexivity| |exact HL].
  intros x Hx IH. unfold Z.succ. rewrite sum_pow_succ, IH by lia.
  rewrite Z.pow_1_l by lia. lia.
Qed.

Lemma dataset_length_closed_form_witness :
  (3 - 1) * TextImageDataset.__len__
              (TextImageDataset.__init__ ["a"; "b"; "c"] 3 "DejaVuSans.ttf" 20
                 (64, 64) false) = 3 ^ 4 - 1.
Proof.
  apply (dataset_length_closed_form ["a"; "b"; "c"] 3 "DejaVuSans.ttf" 20
           (64, 64) false). lia.
Defined.

Lemma generate_clamp (alphabet : list string) (max_length : Z) :
  generate_all_combinations alphabet max_length
  = generate_all_combinations alphabet (Z.max 0 max_length).
Proof.
  rewrite !generate_blocks.
  destruct (Z.le_gt_cases 0 max_length) as [H|H].
  - now rewrite Z.max_r.
  - rewrite Z.max_l by lia. now rewrite !range_empty by lia.
Qed.

Lemma generate_extend (alphabet : list string) (L L' : Z) :
  0 <= L <= L' ->
  generate_all_combinations alphabet L'
  = generate_all_combinations alphabet L
    ++ flat_map (fun len => map Py.join (Py.product alphabet (Z.to_nat len)))
                (Py.range (L + 1) (L' + 1)).
Proof.
  intros H. rewrite !generate_blocks.
  rewrite (range_split 1 (L + 1) (L' + 1)) by lia.
  now rewrite flat_map_app.
Qed.

(** Raising [max_length] only appends texts: a dataset with a smaller
    [max_length] is a prefix of one with a larger, so every index keeps its
    text. *)
Theorem texts_prefix_stable
  (alphabet : list string) (max_length max_length' idx : Z) :
  max_length <= max_length' ->
  0 <= idx < Z.of_nat (List.length (generate_all_combinations alphabet max_length)) ->
  (exists rest,
     generate_all_combinations alphabet max_length'
     = generate_all_combinations alphabet max_length ++ rest)
  /\ Py.getitem (generate_all_combinations alphabet max_length') idx
     = Py.getitem (generate_all_combinations alphabet max_length) idx.
Proof.
  intros HL Hidx.
  assert (Hext : exists rest,
             generate_all_combinations alphabet max_length'
             = generate_all_combinations alphabet max_length ++ rest).
  { rewrite (generate_clamp alphabet max_length),
            (generate_clamp alphabet max_length').
    eexists. apply generate_extend. lia. }
  split; [exact Hext|].
  destruct Hext as [rest Hext].
  rewrite (getitem_nth (generate_all_combinations alphabet max_length) idx "")
    by exact Hidx.
  rewrite (getitem_nth (generate_all_combinations alphabet max_length') idx "").
  - rewrite Hext, app_nth1 by lia. reflexivity.
  - rewrite Hext, length_app. lia.
Qed.

Lemma texts_prefix_stable_witness :
  Py.getitem (generate_all_combinations ["a"; "b"] 3) 5
  = Py.getitem (generate_all_combinations ["a"; "b"] 2) 5.
Proof.
  apply (texts_prefix_stable ["a"; "b"] 2 3 5).
  - lia.
  - split; [lia|reflexivity].
Defined.

Lemma append_empty_r (s : string) : (s ++ "")%string = s.
Proof. induction s as [|c s IH]; simpl; [reflexivity|now rewrite IH]. Qed.

Lemma product_one {A} (pool : list A) :
  Py.product pool 1 = map (fun y => [y]) pool.
Proof.
  unfold Py.product, Py.product_step. simpl. now rewrite app_nil_r.
Qed.

Lemma generate_first_block (alphabet : list string) (max_length : Z) :
  1 <= max_length ->
  generate_all_combinations alphabet max_length
  = "" :: alphabet
       ++ flat_map (fun len => map Py.join (Py.product alphabet (Z.to_nat len)))
                   (Py.range 2 (max_length + 1)).
Proof.
  intros H. rewrite generate_blocks, (range_cons 1) by lia.
  cbn [flat_map]. change (Z.to_nat 1) with 1%nat. change (1 + 1) with 2.
  rewrite product_one, map_map. f_equal. f_equal.
  rewrite <- (map_id alphabet) at 2. apply map_ext.
  intros a. simpl. apply append_empty_r.
Qed.

(** With [max_length >= 1] the texts at the indices 1 to [len(alphabet)]
    are the elements of the alphabet, in the alphabet's order. *)
Theorem alphabet_follows_empty_text
  (alphabet : list string) (max_length : Z) (i : nat) :
  1 <= max_length ->
  (i < List.length alphabet)%nat ->
  Py.getitem (generate_all_combinations alphabet max_length) (1 + Z.of_nat i)
  = inr (nth i alphabet "").
Proof.
  intros HL Hi. rewrite generate_first_block by exact HL.
  rewrite (getitem_nth _ _ "").
  - replace (Z.to_nat (1 + Z.of_nat i)) with (S i) by lia.
    cbn [nth]. now rewrite app_nth1.
  - cbn [List.length]. rewrite length_app. lia.
Qed.

Lemma alphabet_follows_empty_text_witness :
  Py.getitem (generate_all_combinations ["x"; "y"; "z"] 2) (1 + Z.of_nat 2)
  = inr "z".
Proof.
  apply (alphabet_follows_empty_text ["x"; "y"; "z"] 2 2); [lia|simpl; lia].
Defined.

Lemma generate_empty_alphabet (max_length : Z) :
  generate_all_combinations [] max_length = [""].
Proof.
  rewrite generate_blocks. f_equal.
  apply flat_map_all_nil. intros len Hlen. apply range_in in Hlen.
  replace (Z.to_nat len) with (S (Z.to_nat (len - 1))) by lia.
  now rewrite product_empty_pool.
Qed.

(** The dataset is never empty, and it holds the empty text alone exactly
    when [max_length <= 0] or the alphabet is empty. *)
Theorem dataset_singleton_iff
  (alphabet : list string) (max_length : Z)
  (font_name : string) (font_size : Z) (image_size : point) (is_arabic : bool) :
  let self := TextImageDataset.__init__ alphabet max_length font_name font_size
                image_size is_arabic in
  1 <= TextImageDataset.__len__ self
  /\ (TextImageDataset.__len__ self = 1 <-> max_length <= 0 \/ alphabet = [])
  /\ (max_length <= 0 \/ alphabet = [] -> TextImageDataset.texts self = [""]).
Proof.
  intros self. unfold TextImageDataset.__len__. subst self.
  cbn [TextImageDataset.texts TextImageDataset.__init__].
  assert (Hone : max_length <= 0 \/ alphabet = [] ->
                 generate_all_combinations alphabet max_length = [""]).
  { intros [H| ->]; [|apply generate_empty_alphabet].
    rewrite generate_blocks, range_empty by lia. reflexivity. }
  split; [rewrite generate_blocks; simpl List.length; lia|].
  split; [|exact Hone].
  split.
  - intros Hlen.
    destruct (Z.le_gt_cases max_length 0) as [H|H]; [now left|right].
    destruct alphabet as [|a alphabet]; [reflexivity|exfalso].
    rewrite generate_first_block in Hlen by lia.
    simpl List.length in Hlen. lia.
  - intros H. now rewrite Hone.
Qed.

(** *** Distinct alphabets of characters give distinct texts *)

Lemma NoDup_map_inj_in {X Y} (f : X -> Y) (l : list X) :
  (forall x y, In x l -> In y l -> f x = f y -> x = y) ->
  NoDup l -> NoDup (map f l).
Proof.
  intros Hinj Hnd. induction Hnd as [|x l Hx Hnd IH]; simpl; constructor.
  - intros Hin. apply in_map_iff in Hin. destruct Hin as [y [Hy Hin]].
    assert (y = x) by (apply Hinj; simpl; auto). subst. contradiction.
  - apply IH. intros; apply Hinj; simpl; auto.
Qed.

Lemma NoDup_flat_map_disjoint {X Y} (g : X -> list Y) (l : list X) :
  NoDup l ->
  (forall i, In i l -> NoDup (g i)) ->
  (forall i j y, In i l -> In j l -> In y (g i) -> In y (g j) -> i = j) ->
  NoDup (flat_map g l).
Proof.
  intros Hnd. induction Hnd as [|i l Hi Hnd IH]; intros Hg Hdis; simpl;
    [constructor|].
  apply NoDup_app.
  - apply Hg; simpl; auto.
  - apply IH; intros; [apply Hg|eapply Hdis]; simpl; eauto.
  - intros y Hy Hin. apply in_flat_map in Hin. destruct Hin as [j [Hj Hin]].
    assert (i = j) by (eapply Hdis; simpl; eauto). subst. contradiction.
Qed.

Lemma map_flat_map {X Y W} (f : Y -> W) (g : X -> list Y) (l : list X) :
  map f (flat_map g l) = flat_map (fun x => map f (g x)) l.
Proof.
  induction l as [|x l IH]; simpl; [reflexivity|].
  now rewrite map_app, IH.
Qed.

Lemma range_NoDup (lo hi : Z) : NoDup (Py.range lo hi).
Proof.
  unfold Py.range. apply NoDup_map_inj_in; [|apply seq_NoDup].
  intros x y _ _ H. lia.
Qed.

Lemma range_sorted (lo hi : Z) : StronglySorted Z.lt (Py.range lo hi).
Proof.
  unfold Py.range. apply (StronglySorted_map_intro _ lt); [|apply seq_sorted].
  intros x y H. lia.
Qed.

Lemma product_step_NoDup {A} (result : list (list A)) (pool : list A) :
  NoDup result -> NoDup pool -> NoDup (Py.product_step result pool).
Proof.
  intros Hr Hp. unfold Py.product_step.
  apply NoDup_flat_map_disjoint; [exact Hr| |].
  - intros x _. apply NoDup_map_inj_in; [|exact Hp].
    intros y y' _ _ H. now apply app_inj_tail in H.
  - intros x x' z _ _ Hz Hz'.
    apply in_map_iff in Hz. destruct Hz as [y [<- _]].
    apply in_map_iff in Hz'. destruct Hz' as [y' [H _]].
    now apply app_inj_tail in H.
Qed.

Lemma product_NoDup {A} (pool : list A) (n : nat) :
  NoDup pool -> NoDup (Py.product pool n).
Proof.
  intros Hp. induction n as [|n IH].
  - repeat constructor. intros [].
  - rewrite product_succ. now apply product_step_NoDup.
Qed.

Lemma is_char_inv (s : string) :
  is_char s = true -> exists c, s = String c EmptyString.
Proof.
  unfold is_char. intros H. apply Nat.eqb_eq in H.
  destruct s as [|c [|c' s]]; try discriminate. now exists c.
Qed.

Lemma join_chars_length (combination : list string) :
  Forall (fun s => is_char s = true) combination ->
  String.length (Py.join combination) = List.length combination.
Proof.
  induction 1 as [|s comb Hs _ IH]; simpl; [reflexivity|].
  apply is_char_inv in Hs. destruct Hs as [c ->]. simpl. now rewrite IH.
Qed.

Lemma join_chars_inj (x y : list string) :
  Forall (fun s => is_char s = true) x ->
  Forall (fun s => is_char s = true) y ->
  Py.join x = Py.join y -> x = y.
Proof.
  intros Hx. revert y. induction Hx as [|s x Hs _ IH]; intros y Hy H.
  - destruct Hy as [|t y Ht _]; [reflexivity|].
    apply is_char_inv in Ht. destruct Ht as [c ->]. discriminate.
  - apply is_char_inv in Hs. destruct Hs as [c ->].
    destruct Hy as [|t y Ht Hy]; [discriminate|].
    apply is_char_inv in Ht. destruct Ht as [c' ->].
    simpl in H. inversion H; subst. f_equal. now apply IH.
Qed.

(** All the tuples that [generate_all_combinations] joins. *)
Lemma generate_as_map (alphabet : list string) (max_length : Z) :
  generate_all_combinations alphabet max_length
  = map Py.join
      ([] :: flat_map (fun len => Py.product alphabet (Z.to_nat len))
                      (Py.range 1 (max_length + 1))).
Proof. rewrite generate_blocks. cbn [map]. now rewrite map_flat_map. Qed.

Lemma Forall_chars_of_alphabet (alphabet : list string) (x : list string) :
  Forall (fun s => is_char s = true) alphabet ->
  Forall (fun a => In a alphabet) x ->
  Forall (fun s => is_char s = true) x.
Proof.
  intros Ha Hx. rewrite Forall_forall in *. auto.
Qed.

(** Over an alphabet of distinct characters no text occurs twice: the
    index-to-text mapping is injective. *)
Theorem texts_NoDup (alphabet : list string) (max_length : Z) :
  NoDup alphabet ->
  Forall (fun s => is_char s = true) alphabet ->
  NoDup (generate_all_combinations alphabet max_length).
Proof.
  intros Hnd Hch. rewrite generate_as_map.
  set (g := fun len => Py.product alphabet (Z.to_nat len)).
  assert (Hmem : forall x, In x ([] :: flat_map g (Py.range 1 (max_length + 1))) ->
                           Forall (fun s => is_char s = true) x).
  { intros x [<-|Hx]; [constructor|].
    apply in_flat_map in Hx. destruct Hx as [len [_ Hx]].
    apply product_members in Hx.
    apply (Forall_chars_of_alphabet alphabet); tauto. }
  apply NoDup_map_inj_in.
  - intros x y Hx Hy. apply join_chars_inj; auto.
  - constructor.
    + intros Hin. apply in_flat_map in Hin. destruct Hin as [len [Hlen Hin]].
      apply range_in in Hlen. apply product_members in Hin.
      simpl in Hin. lia.
    + apply NoDup_flat_map_disjoint; [apply range_NoDup| |].
      * intros len _. now apply product_NoDup.
      * intros i j y Hi Hj Hyi Hyj.
        apply range_in in Hi. apply range_in in Hj.
        apply product_members in Hyi. apply product_members in Hyj. lia.
Qed.

Lemma texts_NoDup_witness :
  NoDup (generate_all_combinations ["a"; "b"] 2).
Proof.
  apply (texts_NoDup ["a"; "b"] 2).
  - repeat constructor; simpl; intuition discriminate.
  - repeat constructor.
Defined.

Lemma flat_map_sorted_by {X Y} (size : Y -> nat) (g : X -> list Y)
  (key : X -> Z) (l : list X) :
  StronglySorted (fun i j => key i < key j) l ->
  (forall i y, In i l -> In y (g i) -> Z.of_nat (size y) = key i) ->
  StronglySorted (fun a b => (size a <= size b)%nat) (flat_map g l).
Proof.
  intros Hs. induction Hs as [|i l Hs IH Hall]; intros Hsize; simpl;
    [constructor|].
  apply StronglySorted_app_intro.
  - assert (Hi : forall y, In y (g i) -> Z.of_nat (size y) = key i)
      by (intros; apply Hsize; simpl; auto).
    revert Hi. generalize (g i). intros l0.
    induction l0 as [|y l0 IH0]; intros Hi; constructor.
    + apply IH0. intros; apply Hi; simpl; auto.
    + apply Forall_forall. intros z Hz.
      assert (Z.of_nat (size y) = key i) by (apply Hi; simpl; auto).
      assert (Z.of_nat (size z) = key i) by (apply Hi; simpl; auto).
      lia.
  - apply IH. intros; apply Hsize; simpl; auto.
  - intros a b Ha Hb. apply in_flat_map in Hb. destruct Hb as [j [Hj Hb]].
    assert (Z.of_nat (size a) = key i) by (apply Hsize; simpl; auto).
    assert (Z.of_nat (size b) = key j) by (apply Hsize; simpl; auto).
    rewrite Forall_forall in Hall. specialize (Hall j Hj). lia.
Qed.

(** Over an alphabet of characters the texts come shortest first, and none
    is longer than [max_length]. *)
Theorem texts_shortest_first (alphabet : list string) (max_length : Z) :
  Forall (fun s => is_char s = true) alphabet ->
  StronglySorted (fun s t => (String.length s <= String.length t)%nat)
    (generate_all_combinations alphabet max_length)
  /\ Forall (fun t => Z.of_nat (String.length t) <= Z.max 0 max_length)
       (generate_all_combinations alphabet max_length).
Proof.
  intros Hch. split.
  - rewrite generate_blocks. constructor.
    + apply (flat_map_sorted_by String.length _ (fun len => len));
        [apply range_sorted|].
      intros len t Hlen Ht. apply range_in in Hlen.
      apply in_map_iff in Ht. destruct Ht as [comb [<- Hcomb]].
      apply product_members in Hcomb. destruct Hcomb as [Hl Hall].
      rewrite join_chars_length
        by (apply (Forall_chars_of_alphabet alphabet); assumption).
      lia.
    + apply Forall_forall. intros; simpl; lia.
  - apply Forall_forall. intros t Ht.
    apply generate_in_iff in Ht. destruct Ht as [comb [-> [Hall Hl]]].
    rewrite join_chars_length
      by (apply (Forall_chars_of_alphabet alphabet); assumption).
    exact Hl.
Qed.

Lemma texts_shortest_first_witness :
  Forall (fun t => Z.of_nat (String.length t) <= Z.max 0 2)
    (generate_all_combinations ["a"; "b"] 2).
Proof.
  apply (texts_shortest_first ["a"; "b"] 2). repeat constructor.
Defined.

(** *** From an index to its text *)

Lemma product_step_seq_digits (h : nat -> list nat) (base m : nat) :
  Py.product_step (map h (seq 0 m)) (seq 0 base)
  = map (fun j => h (j / base)%nat ++ [(j mod base)%nat]) (seq 0 (m * base)).
Proof.
  unfold Py.product_step. induction m as [|m IH]; [reflexivity|].
  replace (S m) with (m + 1)%nat at 1 by lia.
  rewrite seq_app, map_app, flat_map_app, IH. cbn [map flat_map seq Nat.add].
  rewrite app_nil_r.
  replace (S m * base)%nat with (m * base + base)%nat by lia.
  rewrite seq_app, map_app. f_equal. cbn [Nat.add].
  rewrite (map_seq_from _ (m * base) base).
  apply map_ext_in. intros i Hi. apply in_seq in Hi.
  assert (Hq : ((m * base + i) / base = m)%nat).
  { symmetry. apply (Nat.div_unique _ _ m i); lia. }
  assert (Hr : ((m * base + i) mod base = i)%nat).
  { symmetry. apply (Nat.mod_unique _ _ m i); lia. }
  now rewrite Hq, Hr.
Qed.

(** The [i]-th tuple of [product(range(base), repeat=n)] is [i] written
    with [n] digits in base [base]. *)
Lemma product_seq_digits (base n : nat) :
  Py.product (seq 0 base) n = map (digits base n) (seq 0 (base ^ n)).
Proof.
  induction n as [|n IH]; [reflexivity|].
  rewrite product_succ, IH, product_step_seq_digits.
  replace (base ^ n * base)%nat with (base ^ S n)%nat by (simpl; lia).
  reflexivity.
Qed.

Lemma product_nth_digits (alphabet : list string) (n i : nat) :
  (i < List.length alphabet ^ n)%nat ->
  nth i (Py.product alphabet n) []
  = map (fun d => nth d alphabet "") (digits (List.length alphabet) n i).
Proof.
  intros Hi.
  rewrite <- (map_nth_seq alphabet "") at 1.
  rewrite product_map, product_seq_digits.
  rewrite (nth_indep _ []
             (map (fun d => nth d alphabet "")
                  (digits (List.length alphabet) n 0)))
    by (rewrite !length_map, length_seq; exact Hi).
  rewrite map_nth, map_nth, seq_nth by exact Hi. reflexivity.
Qed.

(** The block of the texts of [k] elements starts at the index
    [A^0 + ... + A^(k-1)], and the text at the [i]-th place of that block is
    spelled by the [k] base-[A] digits of [i], each digit being a position
    in the alphabet. *)
Theorem index_decodes_to_digits
  (alphabet : list string) (max_length : Z) (k i : nat) :
  (1 <= k)%nat ->
  Z.of_nat k <= max_length ->
  (i < List.length alphabet ^ k)%nat ->
  Py.getitem (generate_all_combinations alphabet max_length)
    (sum_pow (Z.of_nat (List.length alphabet)) 0 (Z.of_nat k - 1) + Z.of_nat i)
  = inr (text_of_digits alphabet (digits (List.length alphabet) k i)).
Proof.
  intros Hk HL Hi.
  rewrite <- (generate_length alphabet (Z.of_nat k - 1)) by lia.
  rewrite (generate_extend alphabet (Z.of_nat k - 1) max_length) by lia.
  replace (Z.of_nat k - 1 + 1) with (Z.of_nat k) by lia.
  rewrite (range_cons (Z.of_nat k)) by lia.
  cbn [flat_map]. rewrite Nat2Z.id.
  set (prev := generate_all_combinations alphabet (Z.of_nat k - 1)).
  set (rest := flat_map _ _).
  assert (Hblock : List.length (map Py.join (Py.product alphabet k))
                   = (List.length alphabet ^ k)%nat)
    by (rewrite length_map; apply product_length).
  rewrite (getitem_nth _ _ "").
  - replace (Z.to_nat (Z.of_nat (List.length prev) + Z.of_nat i))
      with (List.length prev + i)%nat by lia.
    rewrite app_nth2_plus, app_nth1 by lia.
    change "" with (Py.join []) at 1. rewrite map_nth.
    unfold text_of_digits. now rewrite product_nth_digits.
  - rewrite !length_app, Hblock. lia.
Qed.

Lemma index_decodes_to_digits_witness :
  Py.getitem (generate_all_combinations ["a"; "b"; "c"] 2)
    (sum_pow (Z.of_nat 3) 0 (Z.of_nat 2 - 1) + Z.of_nat 5)
  = inr "bc".
Proof.
  apply (index_decodes_to_digits ["a"; "b"; "c"] 2 2 5); simpl; lia.
Defined.

(* ================================================================= *)
(** ** More on [__getitem__] and the renderers *)

Lemma getitem_outside {A} (l : list A) (idx : Z) :
  idx < - Z.of_nat (List.length l) \/ Z.of_nat (List.length l) <= idx ->
  Py.getitem l idx = inl (Py.IndexError "list index out of range").
Proof.
  intros H. unfold Py.getitem.
  destruct (Z.ltb_spec idx 0).
  - destruct (Z.leb_spec 0 (idx + Z.of_nat (List.length l))); [|reflexivity].
    destruct (Z.ltb_spec (idx + Z.of_nat (List.length l))
                (Z.of_nat (List.length l))); [lia|reflexivity].
  - destruct (Z.leb_spec 0 idx); [|reflexivity].
    destruct (Z.ltb_spec idx (Z.of_nat (List.length l))); [lia|reflexivity].
Qed.

Section GetitemFacts.

Context `{B : Backend}.


(** The index is looked up before anything is rendered: an index outside
    [-len, len) raises [IndexError], whatever the font and the canvas. *)
Theorem getitem_out_of_range_raises (self : TextImageDataset.t) (idx : Z) :
  idx < - TextImageDataset.__len__ self \/ TextImageDataset.__len__ self <= idx ->
  TextImageDataset.__getitem__ self idx
  = inl (Py.IndexError "list index out of range").
Proof.
  intros H. unfold TextImageDataset.__getitem__, TextImageDataset.__len__ in *.
  now rewrite getitem_outside.
Qed.

(** A negative index in range names the same sample as the index counted
    from the front. *)
Theorem getitem_negative_index (self : TextImageDataset.t) (idx : Z) :
  - TextImageDataset.__len__ self <= idx < 0 ->
  TextImageDataset.__getitem__ self idx
  = TextImageDataset.__getitem__ self (idx + TextImageDataset.__len__ self).
Proof.
  intros H. unfold TextImageDataset.__getitem__, TextImageDataset.__len__ in *.
  now rewrite getitem_negative.
Qed.


(** The ink is displaced from the place the anchor table computes by the
    corner [(b0, b1)] of the measured box: at the left anchors it starts
    [b0] from the left edge, at the top anchors [b1] from the top edge, and
    at the right anchors it ends [b0] beyond the right edge. *)
Theorem edge_anchor_margins
  (text : string) (image_size : point) (font : Font) (position : string)
  (is_arabic : bool) :
  let box := rendered_bbox text image_size font position is_arabic in
  let '(b0, b1, _, _) := getbbox font (bidi_text_of is_arabic text) in
  (In position ["top-left"; "center-left"; "bottom-left"] ->
   margin_left box = b0)
  /\ (In position ["top-left"; "top-center"; "top-right"] ->
      margin_top box = b1)
  /\ (In position ["top-right"; "center-right"; "bottom-right"] ->
      margin_right image_size box = - b0).
Proof.
  unfold rendered_bbox, draw_origin, textbbox.
  destruct (getbbox font (bidi_text_of is_arabic text)) as [[[b0 b1] b2] b3].
  destruct image_size as [w h].
  cbn [bbox_shift fst snd]. rewrite !Z.add_0_r.
  split; [|split]; intros [<-|[<-|[<-|[]]]];
    cbn [text_origin positions Py.dict_get Py.str_in bottom_anchors existsb
         String.eqb Ascii.eqb Bool.eqb fst snd orb
         margin_left margin_top margin_right]; lia.
Qed.

(** The transform keeps the shape of the image's bands, and every value
    of the tensor of an 8-bit image lies in [-1, 1]. *)
Theorem transform_shape_and_range (image : Image) :
  Forall (Forall (fun v => 0 <= v <= 255)) (getbands image) ->
  map (@List.length Q) (transform image) = map (@List.length Z) (getbands image)
  /\ Forall (Forall (fun q => (-1 <= q <= 1)%Q)) (transform image).
Proof.
  intros H. split; [|now apply transform_values_in_range].
  unfold transform, ToTensor. rewrite Normalize_broadcast, !map_map.
  apply map_ext. intros band. now rewrite !length_map.
Qed.

End GetitemFacts.

Lemma getitem_negative_index_witness :
  @TextImageDataset.__getitem__ Sample.backend
    (TextImageDataset.__init__ ["a"; "b"] 2 "DejaVuSans.ttf" 5 (4, 3) false) (-1)
  = @TextImageDataset.__getitem__ Sample.backend
      (TextImageDataset.__init__ ["a"; "b"] 2 "DejaVuSans.ttf" 5 (4, 3) false)
      (-1 + TextImageDataset.__len__
              (TextImageDataset.__init__ ["a"; "b"] 2 "DejaVuSans.ttf" 5 (4, 3) false)).
Proof.
  apply (getitem_negative_index (B := Sample.backend)
           (TextImageDataset.__init__ ["a"; "b"] 2 "DejaVuSans.ttf" 5 (4, 3) false)
           (-1)).
  split; [discriminate|reflexivity].
Defined.


Lemma transform_shape_and_range_witness :
  Forall (Forall (fun q => (-1 <= q <= 1)%Q))
    (@transform Sample.backend
       {| Sample.size := (2, 1); Sample.background := (255, 255, 255);
          Sample.drawn := [((0, 0, 1, 1), (0, 0, 0))] |}).
Proof.
  apply (transform_shape_and_range (B := Sample.backend)
           {| Sample.size := (2, 1); Sample.background := (255, 255, 255);
              Sample.drawn := [((0, 0, 1, 1), (0, 0, 0))] |}).
  vm_compute. repeat constructor; discriminate.
Defined.

Lemma center_centered_without_offset_witness :
  @getbbox Sample.backend (@load_default Sample.backend) "ab" = (0, 0, 12, 11)
  /\ centered_h (64, 64)
       (@rendered_bbox Sample.backend "ab" (64, 64)
          (@load_default Sample.backend) "center" false) = true
  /\ centered_v (64, 64)
       (@rendered_bbox Sample.backend "ab" (64, 64)
          (@load_default Sample.backend) "center" false) = true.
Proof.
  split; [reflexivity|].
  apply (center_centered_without_offset (B := Sample.backend) "ab" (64, 64)
           (@load_default Sample.backend) false 12 11).
  reflexivity.
Defined.

Lemma bottom_margin_witness :
  margin_bottom (64, 64)
    (@rendered_bbox Sample.backend "a" (64, 64)
       {| Sample.px := 20; Sample.builtin := false |} "bottom-center" false)
  = 5 - 8.
Proof.
  apply (bottom_margin (B := Sample.backend) "a" (64, 64)
           {| Sample.px := 20; Sample.builtin := false |} "bottom-center" false).
  simpl. tauto.
Defined.

(** At the anchor "center" the left and right margins of the ink differ by
    [2 * b0] less the rounding of [// 2], and the top and bottom margins by
    [2 * b1] less the rounding, [(b0, b1)] being the corner of the measured
    box. *)
Theorem center_margin_difference `{B : Backend}
  (text : string) (image_size : point) (font : Font) (is_arabic : bool) :
  let '(b0, b1, b2, b3) := getbbox font (bidi_text_of is_arabic text) in
  let box := rendered_bbox text image_size font "center" is_arabic in
  margin_left box - margin_right image_size box
  = 2 * b0 - (fst image_size - (b2 - b0)) mod 2
  /\ margin_top box - margin_bottom image_size box
     = 2 * b1 - (snd image_size - (b3 - b1)) mod 2.
Proof. apply center_margins. Qed.

(** C7, as the claim states it, fails on a canvas that cannot be created.
    At the size (-1, 5) the font "DejaVuSans.ttf" loads and yet
    [render_text_image] raises: the loader's failure is not the only error
    path.  With "missing.ttf" the loader fails with an [IOError], but what
    [render_text_image] raises is the [ValueError] of [Image.new], and the
    dataset's renderer raises it too instead of returning an image drawn with
    the default font. *)
Lemma font_failure_not_the_only_error_path :
  @truetype Sample.backend "DejaVuSans.ttf" 20
  = inr {| Sample.px := 20; Sample.builtin := false |}
  /\ @render_text_image_checked Sample.backend "a" (-1, 5) "DejaVuSans.ttf" 20
       "center" false
     = inl (Py.ValueError "Width and height must be >= 0")
  /\ @truetype Sample.backend "missing.ttf" 20
     = inl (Py.IOError "cannot open resource")
  /\ @render_text_image_checked Sample.backend "a" (-1, 5) "missing.ttf" 20
       "center" false
     <> inl (Py.IOError "cannot open resource")
  /\ @TextImageDataset.render_text_image_checked Sample.backend
       (TextImageDataset.__init__ ["a"; "b"] 2 "missing.ttf" 20 (-1, 5) false) "a"
     = inl (Py.ValueError "Width and height must be >= 0").
Proof. repeat split; try reflexivity. discriminate. Qed.

Lemma font_failure_on_valid_canvas_witness :
  @render_text_image_checked Sample.backend "ab" (64, 64) "missing.ttf" 20
    "center" false
  = inl (Py.IOError "cannot open resource")
  /\ (exists image,
        @TextImageDataset.render_text_image_checked Sample.backend
          (TextImageDataset.__init__ ["a"; "b"] 2 "missing.ttf" 20 (64, 64) false)
          "ab" = inr image)
  /\ @render_text_image_checked Sample.backend "ab" (64, -1) "missing.ttf" 20
       "center" false
     = inl (Py.ValueError "Width and height must be >= 0").
Proof.
  split; [|split].
  - destruct (font_failure_on_valid_canvas (B := Sample.backend)
                "ab" (64, 64) "missing.ttf" 20 "center" false
                (TextImageDataset.__init__ ["a"; "b"] 2 "missing.ttf" 20 (64, 64) false))
      as (Hp & _).
    apply Hp; simpl; try lia. reflexivity.
  - destruct (font_failure_on_valid_canvas (B := Sample.backend)
                "ab" (64, 64) "missing.ttf" 20 "center" false
                (TextImageDataset.__init__ ["a"; "b"] 2 "missing.ttf" 20 (64, 64) false))
      as (_ & Hd & _).
    eexists. apply (Hd ltac:(simpl; lia) ltac:(simpl; lia)
                      (Py.IOError "cannot open resource")); reflexivity.
  - destruct (font_failure_on_valid_canvas (B := Sample.backend)
                "ab" (64, -1) "missing.ttf" 20 "center" false
                (TextImageDataset.__init__ ["a"; "b"] 2 "missing.ttf" 20 (64, 64) false))
      as (_ & _ & _ & Hn & _).
    apply Hn. simpl. lia.
Defined.

Lemma getitem_out_of_range_raises_witness :
  @TextImageDataset.__getitem__ Sample.backend
    (TextImageDataset.__init__ ["a"; "b"] 2 "missing.ttf" 0 (-1, 5) true) 7
  = inl (Py.IndexError "list index out of range").
Proof.
  apply (getitem_out_of_range_raises (B := Sample.backend)
           (TextImageDataset.__init__ ["a"; "b"] 2 "missing.ttf" 0 (-1, 5) true) 7).
  right. vm_compute. discriminate.
Defined.
